(** * Verification of the Shopify webhook gate (http_shopify_webhook.go)

    A shallow embedding of [verifyRequest], [webhookVerifyHandler] and
    [WebhookVerify], together with the parts of Go's standard library they
    call: [crypto/sha256], [crypto/hmac], [encoding/hex], [io.TeeReader],
    [ioutil.ReadAll], [http.Header.Get] and [http.Error]. *)

From Stdlib Require Import ZArith List Lia Bool.
From Stdlib.Strings Require Import String Ascii Byte.
From stdpp Require Import base gmap strings.
From Equations Require Import Equations.
Import ListNotations.

Local Open Scope Z_scope.

(** ** Bytes

    A Go [byte] is [Init.Byte.byte]; a Go [string] is an immutable byte
    sequence, i.e. a Rocq [string]; [[]byte(s)] is [list_byte_of_string]. *)

Definition Z_of_byte (b : byte) : Z := Z.of_N (Byte.to_N b).

Definition byte_of_Z (z : Z) : byte :=
  match Byte.of_N (Z.to_N (z mod 256)) with
  | Some b => b
  | None => x00
  end.

(** ** crypto/sha256 (the portable block function of the Go library) *)

Module sha256.

Definition Size : nat := 32.
Definition BlockSize : nat := 64.

(** [uint32] arithmetic, with the wrap-around written out. *)
Definition u32 (x : Z) : Z := x mod 2 ^ 32.
Definition add32 (x y : Z) : Z := u32 (x + y).
Definition not32 (x : Z) : Z := Z.lxor x 0xFFFFFFFF.

(** [bits.RotateLeft32(x, -k)] *)
Definition rotr (x k : Z) : Z :=
  Z.lor (Z.shiftr x k) (u32 (Z.shiftl x (32 - k))).

Definition _K : list Z :=
  [ 0x428A2F98; 0x71374491; 0xB5C0FBCF; 0xE9B5DBA5;
    0x3956C25B; 0x59F111F1; 0x923F82A4; 0xAB1C5ED5;
    0xD807AA98; 0x12835B01; 0x243185BE; 0x550C7DC3;
    0x72BE5D74; 0x80DEB1FE; 0x9BDC06A7; 0xC19BF174;
    0xE49B69C1; 0xEFBE4786; 0x0FC19DC6; 0x240CA1CC;
    0x2DE92C6F; 0x4A7484AA; 0x5CB0A9DC; 0x76F988DA;
    0x983E5152; 0xA831C66D; 0xB00327C8; 0xBF597FC7;
    0xC6E00BF3; 0xD5A79147; 0x06CA6351; 0x14292967;
    0x27B70A85; 0x2E1B2138; 0x4D2C6DFC; 0x53380D13;
    0x650A7354; 0x766A0ABB; 0x81C2C92E; 0x92722C85;
    0xA2BFE8A1; 0xA81A664B; 0xC24B8B70; 0xC76C51A3;
    0xD192E819; 0xD6990624; 0xF40E3585; 0x106AA070;
    0x19A4C116; 0x1E376C08; 0x2748774C; 0x34B0BCB5;
    0x391C0CB3; 0x4ED8AA4A; 0x5B9CCA4F; 0x682E6FF3;
    0x748F82EE; 0x78A5636F; 0x84C87814; 0x8CC70208;
    0x90BEFFFA; 0xA4506CEB; 0xBEF9A3F7; 0xC67178F2 ].

(** The eight chaining words [dig.h]. *)
Record words8 : Type := W8 { ha : Z; hb : Z; hc : Z; hd : Z;
                             he : Z; hf : Z; hg : Z; hh : Z }.

Definition init : words8 :=
  W8 0x6A09E667 0xBB67AE85 0x3C6EF372 0xA54FF53A
     0x510E527F 0x9B05688C 0x1F83D9AB 0x5BE0CD19.

(** [w[i] = uint32(p[j])<<24 | uint32(p[j+1])<<16 | uint32(p[j+2])<<8 | uint32(p[j+3])] *)
Fixpoint be_words (p : list byte) : list Z :=
  match p with
  | b0 :: b1 :: b2 :: b3 :: rest =>
      Z.lor (Z.lor (Z.lor (Z.shiftl (Z_of_byte b0) 24) (Z.shiftl (Z_of_byte b1) 16))
                   (Z.shiftl (Z_of_byte b2) 8)) (Z_of_byte b3)
      :: be_words rest
  | _ => []
  end.

(** The message schedule, kept newest first: the head is [w[i-1]]. *)
Definition next_w (ws : list Z) : Z :=
  let v1 := nth 1 ws 0 in
  let t1 := Z.lxor (Z.lxor (rotr v1 17) (rotr v1 19)) (Z.shiftr v1 10) in
  let v2 := nth 14 ws 0 in
  let t2 := Z.lxor (Z.lxor (rotr v2 7) (rotr v2 18)) (Z.shiftr v2 3) in
  add32 (add32 (add32 t1 (nth 6 ws 0)) t2) (nth 15 ws 0).

Fixpoint extend (n : nat) (ws : list Z) : list Z :=
  match n with
  | O => ws
  | S n' => extend n' (next_w ws :: ws)
  end.

Definition schedule (p : list byte) : list Z :=
  rev (extend 48 (rev (be_words p))).

(** One iteration of the 64-round loop. *)
Definition round (s : words8) (kw : Z * Z) : words8 :=
  let '(W8 a b c d e f g h) := s in
  let t1 := add32 (add32 (add32 (add32 h
              (Z.lxor (Z.lxor (rotr e 6) (rotr e 11)) (rotr e 25)))
              (Z.lxor (Z.land e f) (Z.land (not32 e) g)))
              (fst kw)) (snd kw) in
  let t2 := add32 (Z.lxor (Z.lxor (rotr a 2) (rotr a 13)) (rotr a 22))
                  (Z.lxor (Z.lxor (Z.land a b) (Z.land a c)) (Z.land b c)) in
  W8 (add32 t1 t2) a b c (add32 d t1) e f g.

(** [blockGeneric] on one 64-byte chunk. *)
Definition block (s : words8) (p : list byte) : words8 :=
  let '(W8 a b c d e f g h) := fold_left round (combine _K (schedule p)) s in
  W8 (add32 (ha s) a) (add32 (hb s) b) (add32 (hc s) c) (add32 (hd s) d)
     (add32 (he s) e) (add32 (hf s) f) (add32 (hg s) g) (add32 (hh s) h).

(** [blockGeneric] on a whole buffer: [for len(p) >= chunk { ...; p = p[chunk:] }].
    [n] bounds the number of chunks. *)
Fixpoint blocks (n : nat) (s : words8) (p : list byte) : words8 :=
  match n with
  | O => s
  | S n' =>
      if (length p <? 64)%nat then s
      else blocks n' (block s (firstn 64 p)) (skipn 64 p)
  end.

Definition be_bytes (width : nat) (x : Z) : list byte :=
  map (fun i => byte_of_Z (Z.shiftr x (8 * Z.of_nat i))) (rev (seq 0 width)).

(** The padding [checkSum] writes: [0x80], zeros up to 56 mod 64, and the
    bit length as a big-endian [uint64] ([len <<= 3] wraps). *)
Definition padding (len : nat) : list byte :=
  let r := (len mod 64)%nat in
  let t := if (r <? 56)%nat then (56 - r)%nat else (64 + 56 - r)%nat in
  x80 :: repeat x00 (t - 1) ++ be_bytes 8 ((Z.of_nat len * 8) mod 2 ^ 64).

(** [Sum256]: the digest of a whole message. *)
Definition Sum256 (data : list byte) : list byte :=
  let p := data ++ padding (length data) in
  let '(W8 a b c d e f g h) := blocks (length p / 64) init p in
  flat_map (be_bytes 4) [a; b; c; d; e; f; g; h].

End sha256.

(** ** hash.Hash

    The interface of the hash [hmac.New] is given.  An object of it
    accumulates what is written to it; [Sum(b)] appends the digest of all of
    it to [b] and leaves the object unchanged. *)

Module hash.

Record Hash : Type := mkHash {
  digest : list byte -> list byte;
  BlockSize : nat;
  written : list byte
}.

Definition Write (h : Hash) (p : list byte) : Hash :=
  mkHash (digest h) (BlockSize h) (written h ++ p).

Definition Sum (h : Hash) (b : list byte) : list byte :=
  b ++ digest h (written h).

Definition Reset (h : Hash) : Hash :=
  mkHash (digest h) (BlockSize h) [].

End hash.

(** [sha256.New()] *)
Definition sha256_New : hash.Hash :=
  hash.mkHash sha256.Sum256 sha256.BlockSize [].

(** ** crypto/hmac *)

Module hmac.

Record HMAC : Type := mkHMAC {
  opad : list byte;
  ipad : list byte;
  outer : hash.Hash;
  inner : hash.Hash
}.

Definition xor_byte (c : Z) (b : byte) : byte :=
  byte_of_Z (Z.lxor (Z_of_byte b) c).

(** [copy(pad, key)] into a zeroed pad of [blocksize] bytes. *)
Definition copy_into (blocksize : nat) (key : list byte) : list byte :=
  firstn blocksize key ++ repeat x00 (blocksize - length key).

Definition New (h : hash.Hash) (key : list byte) : HMAC :=
  let outer := h in
  let inner := h in
  let blocksize := hash.BlockSize inner in
  let '(outer, key) :=
    if (blocksize <? length key)%nat
    then (* If key is too big, hash it. *)
      let outer := hash.Write outer key in
      (outer, hash.Sum outer [])
    else (outer, key) in
  let ipad := map (xor_byte 0x36) (copy_into blocksize key) in
  let opad := map (xor_byte 0x5C) (copy_into blocksize key) in
  let inner := hash.Write inner ipad in
  mkHMAC opad ipad outer inner.

Definition Write (h : HMAC) (p : list byte) : HMAC :=
  mkHMAC (opad h) (ipad h) (outer h) (hash.Write (inner h) p).

Definition Sum (h : HMAC) (b : list byte) : list byte :=
  let origLen := length b in
  let b' := hash.Sum (inner h) b in
  let outer := hash.Reset (outer h) in
  let outer := hash.Write outer (opad h) in
  let outer := hash.Write outer (skipn origLen b') in
  hash.Sum outer (firstn origLen b').

End hmac.

(** ** encoding/hex *)

Module hex.

Definition hextable : string := "0123456789abcdef".

(** [hextable[i]] *)
Definition digit (i : Z) : ascii :=
  match String.get (Z.to_nat i) hextable with
  | Some c => c
  | None => Ascii.zero
  end.

(** [dst[j] = hextable[v>>4]; dst[j+1] = hextable[v&0x0f]] for each [v]. *)
Fixpoint EncodeToString (src : list byte) : string :=
  match src with
  | [] => EmptyString
  | v :: rest =>
      String (digit (Z.shiftr (Z_of_byte v) 4))
        (String (digit (Z.land (Z_of_byte v) 0x0F)) (EncodeToString rest))
  end.

End hex.

(** ** The Verifier: [verifyRequest]

    [verifyRequestWith] is the body of [verifyRequest] with the hash
    constructor handed to [hmac.New] left open; the program fixes it to
    [sha256.New]. *)

Definition verifyRequestWith (newHash : hash.Hash)
    (key shop shmac : string) (bb : list byte) : bool :=
  if String.eqb shop "" then
    (* No shop provided. *)
    false
  else
    (* Create an hmac of the body with the secret key to compare. *)
    let h := hmac.New newHash (list_byte_of_string key) in
    let h := hmac.Write h bb in
    let sum := hex.EncodeToString (hmac.Sum h []) in
    String.eqb sum shmac.

Definition verifyRequest (key shop shmac : string) (bb : list byte) : bool :=
  verifyRequestWith sha256_New key shop shmac bb.

(** ** Go errors *)

(** [io.EOF], or any other error value (named by its message). *)
Inductive error : Type :=
| EOF
| ErrOther (msg : string).

(** ** io: readers, [TeeReader], [ReadAll] *)

Module io.

(** The readers of the program.  [Stream pending final] is a request body:
    [pending] is what the transport still delivers and [final] what [Read]
    returns once it is exhausted, [io.EOF] for a complete body and another
    error for a transfer that breaks off.  [Tee r w] is
    [io.TeeReader(r, &w)] with [w] a [bytes.Buffer]: it holds the state of
    the reader it wraps, since reading through it advances that reader. *)
Inductive Reader : Type :=
| Stream (pending : list byte) (final : error)
| Tee (r : Reader) (w : list byte).

(** [Read(p)] with [len(p) = n]: the bytes read, the error, the reader after. *)
Fixpoint Read (n : nat) (r : Reader) : list byte * option error * Reader :=
  match r with
  | Stream pending final =>
      match pending with
      | [] => ([], Some final, r)
      | _ => (firstn n pending, None, Stream (skipn n pending) final)
      end
  | Tee r w =>
      let '(p, err, r') := Read n r in
      (* [bytes.Buffer.Write] always returns a nil error *)
      if (0 <? length p)%nat then (p, err, Tee r' (w ++ p))
      else (p, err, Tee r' w)
  end.

(** What the underlying stream still holds. *)
Fixpoint remaining (r : Reader) : list byte :=
  match r with
  | Stream pending _ => pending
  | Tee r _ => remaining r
  end.

(** [bytes.MinRead]: the room [ReadAll] offers to each [Read] is at least
    this; the model offers exactly this much every time. *)
Definition MinRead : nat := 512.

Definition inspect {A : Type} (a : A) : {b : A | a = b} := exist _ a eq_refl.

(** The loop of [ReadAll]: read until an error, which ends the loop;
    [io.EOF] is reported as a nil error. *)
Equations? readLoop (r : Reader) (b : list byte)
  : list byte * option error * Reader by wf (length (remaining r)) lt :=
  readLoop r b with inspect (Read MinRead r) := {
    | exist _ (p, Some EOF, r') _ => (b ++ p, None, r')
    | exist _ (p, Some err, r') _ => (b ++ p, Some err, r')
    | exist _ (p, None, r') Heq => readLoop r' (b ++ p) }.
Proof.
  clear readLoop b. revert p r' Heq.
  induction r as [pending final | r IH w]; intros p r' H; simpl in H.
  - destruct pending as [| c pending]; [discriminate |].
    inversion H; subst; clear H. simpl. rewrite length_skipn. lia.
  - destruct (Read MinRead r) as [[q err] r1] eqn:E.
    destruct (0 <? length q)%nat; inversion H; subst; simpl; eapply IH; eauto.
Qed.

Definition ReadAll (r : Reader) : list byte * option error * Reader :=
  readLoop r [].

Definition TeeReader (r : Reader) (w : list byte) : Reader := Tee r w.

(** The error a reader reports once its stream is exhausted. *)
Fixpoint final (r : Reader) : error :=
  match r with
  | Stream _ e => e
  | Tee r _ => final r
  end.

(** The state of a reader after everything has been read from it: the
    stream is empty, and a [Tee] has copied all of it into its buffer. *)
Fixpoint drained (r : Reader) : Reader :=
  match r with
  | Stream _ e => Stream [] e
  | Tee r w => Tee (drained r) (w ++ remaining r)
  end.

(** What [ReadAll] reports for a final error: [io.EOF] is no error. *)
Definition reported (e : error) : option error :=
  match e with
  | EOF => None
  | ErrOther _ => Some e
  end.

(** The reader a [TeeReader] wraps, in its current state. *)
Definition source (t : Reader) : Reader :=
  match t with
  | Tee r _ => r
  | Stream _ _ => t
  end.

End io.

(** ** net/http: headers, requests, response writers, handlers *)

Module http.

Definition StatusOK : Z := 200.
Definition StatusBadRequest : Z := 400.

(** [validHeaderFieldByte]: the token characters of RFC 7230. *)
Definition validHeaderFieldByte (c : ascii) : bool :=
  let n := N_of_ascii c in
  ((48 <=? n) && (n <=? 57))%N || ((65 <=? n) && (n <=? 90))%N
  || ((97 <=? n) && (n <=? 122))%N
  || existsb (Ascii.eqb c) (list_ascii_of_string "!#$%&'*+-.^_`|~").

(** The canonicalising loop: the first letter and every letter after a
    hyphen in upper case, the others in lower case. *)
Fixpoint canonical (upper : bool) (s : string) : string :=
  match s with
  | EmptyString => EmptyString
  | String c rest =>
      let n := N_of_ascii c in
      let c' :=
        if upper && ((97 <=? n) && (n <=? 122))%N then ascii_of_N (n - 32)
        else if negb upper && ((65 <=? n) && (n <=? 90))%N then ascii_of_N (n + 32)
        else c in
      String c' (canonical (Ascii.eqb c' "-") rest)
  end.

(** [textproto.CanonicalMIMEHeaderKey]: a key with a byte that is no token
    character is returned unchanged. *)
Definition CanonicalMIMEHeaderKey (s : string) : string :=
  if forallb validHeaderFieldByte (list_ascii_of_string s)
  then canonical true s
  else s.

(** [Header.Get]: the first value stored under the canonical form of
    [key], or the empty string. [http.Header] is [map[string][]string]. *)
Definition Get (h : gmap string (list string)) (key : string) : string :=
  match h !! CanonicalMIMEHeaderKey key with
  | Some (v :: _) => v
  | _ => ""
  end.

Record Request : Type := mkRequest {
  Header : gmap string (list string);
  Body : io.Reader
}.

(** A [ResponseWriter] is an interface; what an implementation sees of a
    handler is the sequence of method calls made on it. *)
Inductive call : Type :=
| HeaderSet (key value : string)
| WriteHeader (statusCode : Z)
| Write (p : list byte).

Definition ResponseWriter : Type := list call.

(** [Handler.ServeHTTP(w, r)]: the request is a pointer, so a handler hands
    back the state it leaves [w] and [r] in. *)
Definition Handler : Type := ResponseWriter -> Request -> ResponseWriter * Request.

(** [http.Error]: two header fields, the status, and the text with a newline
    ([fmt.Fprintln(w, error)]). *)
Definition Error (w : ResponseWriter) (error : string) (code : Z) : ResponseWriter :=
  w ++ [ HeaderSet "Content-Type" "text/plain; charset=utf-8";
         HeaderSet "X-Content-Type-Options" "nosniff";
         WriteHeader code;
         Write (list_byte_of_string error ++ [x0a]) ].

(** The response a server builds from the calls: the first [WriteHeader]
    fixes the status, a [Write] before any [WriteHeader] implies
    [WriteHeader(StatusOK)], and written bytes are appended to the body. *)
Record Response : Type := mkResponse {
  Code : option Z;
  HeaderMap : gmap string (list string);
  Sent : list byte
}.

Definition fresh : Response := mkResponse None ∅ [].

Definition serve (s : Response) (c : call) : Response :=
  match c with
  | HeaderSet k v =>
      match Code s with
      | None => mkResponse None (<[CanonicalMIMEHeaderKey k := [v]]> (HeaderMap s)) (Sent s)
      | Some _ => s
      end
  | WriteHeader code =>
      match Code s with
      | None => mkResponse (Some code) (HeaderMap s) (Sent s)
      | Some _ => s
      end
  | Write p =>
      match Code s with
      | None => mkResponse (Some StatusOK) (HeaderMap s) (Sent s ++ p)
      | Some _ => mkResponse (Code s) (HeaderMap s) (Sent s ++ p)
      end
  end.

Definition response (w : ResponseWriter) : Response := fold_left serve w fresh.

End http.

(** ** The Gate: [webhookVerifyHandler] and [WebhookVerify] *)

Definition Handler : Type := http.Handler.
Definition Middleware : Type := Handler -> Handler.

Definition webhookVerifyHandler (key : string) (h : Handler) : Handler :=
  fun w r =>
    (* HMAC from request headers and the shop. *)
    let shmac := http.Get (http.Header r) "X-Shopify-Hmac-Sha256" in
    let shop := http.Get (http.Header r) "X-Shopify-Shop-Domain" in
    (* Use TeeReader as it won't destroy the original body. *)
    let buffer : list byte := [] in
    let tr := io.TeeReader (http.Body r) buffer in
    let '(bb, _, tr) := io.ReadAll tr in
    (* [tr] read from [r.Body] itself, which stands where the reads left it;
       [buffer] is not used again. *)
    let r := http.mkRequest (http.Header r) (io.source tr) in
    (* Verify all is ok. *)
    let w :=
      if negb (verifyRequest key shop shmac bb)
      then http.Error w "Invalid webhook signature" http.StatusBadRequest
      else w in
    h w r.

Definition WebhookVerify (key : string) : Middleware :=
  fun h => webhookVerifyHandler key h.

(** The state in which [webhookVerifyHandler] reaches its last statement,
    [h.ServeHTTP(w, r)]: the writer, with the rejection written to it when
    the verifier said no, *)
Definition after_verification (key : string) (w : http.ResponseWriter) (r : http.Request)
  : http.ResponseWriter :=
  if verifyRequest key
       (http.Get (http.Header r) "X-Shopify-Shop-Domain")
       (http.Get (http.Header r) "X-Shopify-Hmac-Sha256")
       (io.remaining (http.Body r))
  then w
  else http.Error w "Invalid webhook signature" http.StatusBadRequest.

(** and the request: the same headers, and the body reader where [ReadAll]
    left it. *)
Definition after_reading (r : http.Request) : http.Request :=
  http.mkRequest (http.Header r) (io.drained (http.Body r)).

(** The calls [http.Error] makes for the rejection. *)
Definition rejection : list http.call :=
  http.Error [] "Invalid webhook signature" http.StatusBadRequest.

(** ** Reference definitions

    The definitions below follow the words of the specification and of
    RFC 2104, not the code; the theorems compare the code with them. *)

(** HMAC over SHA-256 as RFC 2104 defines it: [H(K xor opad, H(K xor ipad, text))],
    with [K] the key, hashed first when longer than the 64-byte block, and
    filled up with zeros to the block. *)
Definition HMAC_SHA256 (key text : list byte) : list byte :=
  let k0 := if (64 <? length key)%nat then sha256.Sum256 key else key in
  let k := k0 ++ repeat x00 (64 - length k0) in
  sha256.Sum256 (map (hmac.xor_byte 0x5C) k
                 ++ sha256.Sum256 (map (hmac.xor_byte 0x36) k ++ text)).

(** The signature a sender holding [secret] attaches to [body]. *)
Definition correctSignatureFor (secret : string) (body : list byte) : string :=
  hex.EncodeToString (HMAC_SHA256 (list_byte_of_string secret) body).

(** Upper-casing of ASCII letters, for the upper-case hexadecimal encoding. *)
Definition upper_ascii (c : ascii) : ascii :=
  let n := N_of_ascii c in
  if ((97 <=? n) && (n <=? 122))%N then ascii_of_N (n - 32) else c.

Fixpoint ToUpper (s : string) : string :=
  match s with
  | EmptyString => EmptyString
  | String c rest => String (upper_ascii c) (ToUpper rest)
  end.

(** A byte one of whose two hexadecimal digits is a letter. *)
Definition alphabetic (v : byte) : bool :=
  (10 <=? Z.shiftr (Z_of_byte v) 4) || (10 <=? Z.land (Z_of_byte v) 0x0F).

(** The value of a lower-case hexadecimal digit. *)
Definition hex_value (c : ascii) : option Z :=
  let n := Z.of_N (N_of_ascii c) in
  if (48 <=? n) && (n <=? 57) then Some (n - 48)
  else if (97 <=? n) && (n <=? 102) then Some (n - 97 + 10)
  else None.

(** ** Sample data *)

(** The bytes of the JSON text [{"id":1}]. *)
Definition sample_body : list byte := [x7b; x22; x69; x64; x22; x3a; x31; x7d].

Definition sample_signature : string :=
  "1184fb1bbd72c7b56146a72fca8cf0819ed8c97d3f98e9b6d86d9a1dfa6ab5dc".

Definition sample_header (shmac shop : string) : gmap string (list string) :=
  <["X-Shopify-Hmac-Sha256" := [shmac]]>
    (<["X-Shopify-Shop-Domain" := [shop]]>
       (<["Content-Type" := ["application/json"%string]]> ∅)).

Definition sample_request (shmac shop : string) (body : io.Reader) : http.Request :=
  http.mkRequest (sample_header shmac shop) body.

(** A downstream handler that reads its request body to the end and writes
    what it read as the response. *)
Definition echoBody : Handler :=
  fun w r =>
    let '(bb, _, body) := io.ReadAll (http.Body r) in
    (w ++ [http.Write bb], http.mkRequest (http.Header r) body).

(** ** Notions for the further properties *)

(** A key followed by [n] zero bytes. *)
Definition zero_extended (key : string) (n : nat) : string :=
  String.append key (string_of_list_byte (repeat x00 n)).



(** * Properties *)

(** ** Readers *)

Section ReaderFacts.

Import io.

Lemma Read_exhausted (n : nat) (r : Reader) :
  remaining r = [] -> Read n r = ([], Some (final r), r).
Proof.
  induction r as [pending e | r IH w]; simpl; intros H.
  - now subst.
  - now rewrite IH.
Qed.

Lemma Read_some (n : nat) (r : Reader) :
  (0 < n)%nat -> remaining r <> [] ->
  exists r', Read n r = (firstn n (remaining r), None, r')
             /\ remaining r' = skipn n (remaining r)
             /\ final r' = final r
             /\ drained r' = drained r.
Proof.
  intros Hn. induction r as [pending e | r IH w]; simpl; intros H.
  - destruct pending as [| c pending]; [congruence |].
    eexists; repeat split; reflexivity.
  - destruct (IH H) as (r' & -> & Hrem & Hfin & Hdr).
    assert (Hlen : (0 <? length (firstn n (remaining r)))%nat = true).
    { apply Nat.ltb_lt. destruct (remaining r); [congruence |].
      destruct n; [lia |]. simpl. lia. }
    rewrite Hlen. eexists; repeat split; simpl; try assumption.
    rewrite Hdr, Hrem, <- app_assoc, firstn_skipn. reflexivity.
Qed.

Lemma drained_exhausted (r : Reader) : remaining r = [] -> drained r = r.
Proof.
  induction r as [pending e | r IH w]; simpl; intros H.
  - now subst.
  - now rewrite IH, H, app_nil_r.
Qed.

(** [ReadAll]'s loop returns everything the stream still held, after what
    was already collected, and leaves the reader drained. *)
Lemma readLoop_all (r : Reader) (b : list byte) :
  readLoop r b = (b ++ remaining r, reported (final r), drained r).
Proof.
  funelim (readLoop r b);
    repeat match goal with
           | Hs : sigmaI _ _ _ = _ |- _ => clear Hs
           | Hc : _ = readLoop _ _ |- _ => clear Hc
           end;
    match goal with
    | Hq : Read MinRead ?r = _ |- _ =>
        destruct (remaining r) as [| c rest] eqn:Hrem;
        [ rewrite (Read_exhausted MinRead r Hrem) in Hq
        | destruct (Read_some MinRead r) as (r1 & HR & Hrem' & Hfin & Hdr);
          [ unfold MinRead; lia | congruence | rewrite HR in Hq ] ];
        inversion Hq; subst; clear Hq
    end.
  - rewrite drained_exhausted by assumption.
    match goal with Hf : final _ = EOF |- _ => rewrite Hf end. reflexivity.
  - rewrite drained_exhausted by assumption.
    match goal with Hf : final _ = ErrOther _ |- _ => rewrite Hf end. reflexivity.
  - match goal with IH : readLoop _ _ = _ |- _ => rewrite IH end.
    rewrite Hrem', Hfin, Hdr, <- app_assoc, firstn_skipn, Hrem. reflexivity.
Qed.

Lemma ReadAll_all (r : Reader) :
  ReadAll r = (remaining r, reported (final r), drained r).
Proof. unfold ReadAll. now rewrite readLoop_all. Qed.

End ReaderFacts.

(** [ReadAll] through a tee over a body of several reads: all the bytes come
    back, in order, and the tee's buffer holds a copy. *)
Example ReadAll_tee_large :
  let body := repeat x61 1500 ++ repeat x62 1500 in
  io.ReadAll (io.TeeReader (io.Stream body EOF) [])
  = (body, None, io.Tee (io.Stream [] EOF) body).
Proof. vm_compute. reflexivity. Qed.

(** ** SHA-256, HMAC and the hexadecimal encoding *)

Section CryptoFacts.

Lemma be_bytes_length (n : nat) (x : Z) : length (sha256.be_bytes n x) = n.
Proof. unfold sha256.be_bytes. now rewrite length_map, length_rev, length_seq. Qed.

(** A SHA-256 digest has [sha256.Size] bytes. *)
Lemma Sum256_length (data : list byte) :
  length (sha256.Sum256 data) = sha256.Size.
Proof.
  unfold sha256.Sum256.
  destruct (sha256.blocks _ _ _) as [a b c d e f g h].
  cbn [flat_map]. rewrite !length_app, !be_bytes_length. reflexivity.
Qed.

(** The padded message is a whole number of 64-byte chunks, *)
Lemma padded_length (data : list byte) :
  (length (data ++ sha256.padding (length data)) mod 64 = 0)%nat.
Proof.
  unfold sha256.padding. cbv zeta.
  rewrite length_app. cbn [length]. rewrite length_app, repeat_length, be_bytes_length.
  pose proof (Nat.div_mod_eq (length data) 64) as Hdm.
  pose proof (Nat.mod_upper_bound (length data) 64 ltac:(lia)) as Hlt.
  set (q := (length data / 64)%nat) in *. set (r := (length data mod 64)%nat) in *.
  destruct (r <? 56)%nat eqn:Hr.
  - apply Nat.ltb_lt in Hr.
    replace (length data + S (56 - r - 1 + 8))%nat with ((q + 1) * 64)%nat by lia.
    apply Nat.Div0.mod_mul.
  - apply Nat.ltb_ge in Hr.
    replace (length data + S (64 + 56 - r - 1 + 8))%nat with ((q + 2) * 64)%nat by lia.
    apply Nat.Div0.mod_mul.
Qed.

(** and the bound [length p / 64] on the chunks of [blockGeneric]'s loop is
    enough: a larger bound gives the same state. *)
Lemma blocks_enough (n : nat) (s : sha256.words8) (p : list byte) :
  (length p / 64 <= n)%nat ->
  sha256.blocks n s p = sha256.blocks (length p / 64) s p.
Proof.
  revert s p. induction n as [| n IH]; intros s p Hn.
  - replace (length p / 64)%nat with 0%nat by lia. reflexivity.
  - cbn [sha256.blocks]. destruct (length p <? 64)%nat eqn:Hlt.
    + apply Nat.ltb_lt in Hlt. rewrite (Nat.div_small _ _ Hlt). reflexivity.
    + apply Nat.ltb_ge in Hlt.
      assert (Hdiv : (length p / 64 = S (length (skipn 64 p) / 64))%nat).
      { rewrite length_skipn.
        replace (length p) with ((length p - 64) + 1 * 64)%nat at 1 by lia.
        rewrite Nat.div_add by lia. lia. }
      rewrite Hdiv. cbn [sha256.blocks]. apply Nat.ltb_ge in Hlt. rewrite Hlt.
      apply IH. lia.
Qed.

Lemma copy_into_fits (n : nat) (key : list byte) :
  (length key <= n)%nat ->
  hmac.copy_into n key = key ++ repeat x00 (n - length key).
Proof. intros H. unfold hmac.copy_into. now rewrite firstn_all2. Qed.

(** [hmac.New(sha256.New, key)], [Write(text)], [Sum(nil)] computes the
    HMAC of RFC 2104. *)
Lemma hmac_sha256_refines (key text : list byte) :
  hmac.Sum (hmac.Write (hmac.New sha256_New key) text) [] = HMAC_SHA256 key text.
Proof.
  unfold hmac.New, HMAC_SHA256, sha256_New. cbn [hash.BlockSize].
  unfold sha256.BlockSize.
  destruct (64 <? length key)%nat eqn:Hlen;
    unfold hmac.Sum, hmac.Write, hash.Sum, hash.Write, hash.Reset;
    cbn [hmac.opad hmac.ipad hmac.outer hmac.inner hash.digest hash.BlockSize
         hash.written app length skipn firstn].
  - rewrite copy_into_fits; [reflexivity |].
    rewrite Sum256_length. unfold sha256.Size. lia.
  - apply Nat.ltb_ge in Hlen. rewrite copy_into_fits by exact Hlen. reflexivity.
Qed.

Lemma EncodeToString_length (src : list byte) :
  String.length (hex.EncodeToString src) = (2 * length src)%nat.
Proof. induction src as [| v src IH]; simpl; [reflexivity | rewrite IH; lia]. Qed.

(** The two characters written for a byte are its two base-16 digits, high
    digit first, in the alphabet [0-9a-f]. *)
Lemma digits_of_byte (v : byte) :
  exists hi lo,
    hex_value (hex.digit (Z.shiftr (Z_of_byte v) 4)) = Some hi
    /\ hex_value (hex.digit (Z.land (Z_of_byte v) 0x0F)) = Some lo
    /\ Z_of_byte v = 16 * hi + lo.
Proof.
  exists (Z.shiftr (Z_of_byte v) 4), (Z.land (Z_of_byte v) 0x0F).
  destruct v; vm_compute; repeat split; reflexivity.
Qed.

(** Upper-casing leaves the encoding of a byte alone exactly when neither
    digit is a letter. *)
Lemma upper_digits (v : byte) :
  let hi := hex.digit (Z.shiftr (Z_of_byte v) 4) in
  let lo := hex.digit (Z.land (Z_of_byte v) 0x0F) in
  (upper_ascii hi = hi /\ upper_ascii lo = lo) <-> alphabetic v = false.
Proof.
  destruct v; vm_compute; split;
    solve [ reflexivity | discriminate | intros [? ?]; discriminate
          | intros _; split; reflexivity ].
Qed.

Lemma ToUpper_EncodeToString (src : list byte) :
  ToUpper (hex.EncodeToString src) <> hex.EncodeToString src
  <-> existsb alphabetic src = true.
Proof.
  induction src as [| v src IH]; cbn [hex.EncodeToString ToUpper existsb].
  - split; [congruence | discriminate].
  - pose proof (upper_digits v) as Hv. cbv zeta in Hv.
    destruct (alphabetic v) eqn:Ha; cbn [orb].
    + split; [reflexivity |]. intros _ Heq. inversion Heq as [[H1 H2 H3]].
      destruct Hv as [Hv _]. discriminate Hv. now split.
    + destruct Hv as [_ [-> ->]]; [reflexivity |].
      rewrite <- IH. split; intros H Heq; apply H; congruence.
Qed.

End CryptoFacts.

(** RFC 4231, test case 2: key [Jefe], data [what do ya want for nothing?]. *)
Example rfc4231_case2 :
  hex.EncodeToString
    (HMAC_SHA256 (list_byte_of_string "Jefe")
                 (list_byte_of_string "what do ya want for nothing?"))
  = "5bdcc146bf60754e6a042426089575c75a003f089d2739839dec58b964ec3843"%string.
Proof. vm_compute. reflexivity. Qed.

(** FIPS 180-4: the digest of the three bytes [abc]. *)
Example sha256_abc :
  hex.EncodeToString (sha256.Sum256 (list_byte_of_string "abc"))
  = "ba7816bf8f01cfea414140de5dae2223b00361a396177a9cb410ff61f20015ad"%string.
Proof. vm_compute. reflexivity. Qed.

(** ** The Verifier *)

Section VerifierFacts.

Lemma verifyRequestWith_empty_shop (newHash : hash.Hash)
    (key shmac : string) (bb : list byte) :
  verifyRequestWith newHash key "" shmac bb = false.
Proof. reflexivity. Qed.

Lemma verifyRequest_iff (key shop shmac : string) (bb : list byte) :
  verifyRequest key shop shmac bb = true
  <-> shop <> ""%string /\ shmac = correctSignatureFor key bb.
Proof.
  unfold verifyRequest, verifyRequestWith, correctSignatureFor.
  rewrite hmac_sha256_refines.
  destruct (String.eqb shop "") eqn:Hs.
  - apply String.eqb_eq in Hs. split; [discriminate | intros [H _]; contradiction].
  - apply String.eqb_neq in Hs. rewrite String.eqb_eq.
    split; [intros <-; now split | intros [_ ->]; reflexivity].
Qed.

Lemma verifyRequest_false_iff (key shop shmac : string) (bb : list byte) :
  verifyRequest key shop shmac bb = false
  <-> shop = ""%string \/ shmac <> correctSignatureFor key bb.
Proof.
  rewrite <- not_true_iff_false, verifyRequest_iff.
  destruct (String.eqb_spec shop ""); destruct (String.eqb_spec shmac (correctSignatureFor key bb));
    intuition congruence.
Qed.

End VerifierFacts.

(** The signature of the sample body under the key [abc123] is accepted; a
    wrong signature is refused; the right one without a sender id is refused. *)
Example verify_sample :
  verifyRequest "abc123" "example.myshopify.com" sample_signature sample_body = true
  /\ verifyRequest "abc123" "example.myshopify.com" "deadbeef" sample_body = false
  /\ verifyRequest "abc123" "" sample_signature sample_body = false.
Proof. vm_compute. repeat split. Qed.

(** ** The Gate *)

Section GateFacts.

Variable key : string.
Variable h : Handler.

(** One run of the gate: read the two headers, read the whole body through
    the tee, verify, write the rejection if the verifier says no, and call
    the downstream handler. *)
Lemma webhookVerifyHandler_run (w : http.ResponseWriter) (r : http.Request) :
  webhookVerifyHandler key h w r = h (after_verification key w r) (after_reading r).
Proof.
  unfold webhookVerifyHandler, after_verification, after_reading, io.TeeReader.
  rewrite ReadAll_all. cbn [io.remaining io.drained io.source].
  destruct (verifyRequest _ _ _ _); reflexivity.
Qed.

Lemma response_app (w calls : http.ResponseWriter) :
  http.response (w ++ calls) = fold_left http.serve calls (http.response w).
Proof. unfold http.response. apply fold_left_app. Qed.

Lemma Error_app (w : http.ResponseWriter) (msg : string) (code : Z) :
  http.Error w msg code = w ++ http.Error [] msg code.
Proof. reflexivity. Qed.

Lemma Get_canonical (hdr : gmap string (list string)) (name : string) :
  http.CanonicalMIMEHeaderKey name = name ->
  http.Get hdr name = match hdr !! name with Some (v :: _) => v | _ => ""%string end.
Proof. intros H. unfold http.Get. now rewrite H. Qed.

End GateFacts.

(** * The claims *)

(** C1 (the code departs from the claim): the gate reads the body through a
    [TeeReader] into [buffer] but never puts [buffer] back as [r.Body], so
    the downstream handler finds the body reader at its end.  On the sample
    request the verifier is fed the eight bytes of the body and accepts, and
    a downstream handler that reads the body reads no byte at all; for every
    request, what the downstream handler can read is empty. *)
Theorem C1_downstream_reads_nothing :
  let r := sample_request sample_signature "example.myshopify.com"
             (io.Stream sample_body EOF) in
  verifyRequest "abc123"
    (http.Get (http.Header r) "X-Shopify-Shop-Domain")
    (http.Get (http.Header r) "X-Shopify-Hmac-Sha256") sample_body = true
  /\ webhookVerifyHandler "abc123" echoBody [] r
     = ([http.Write []], http.mkRequest (http.Header r) (io.Stream [] EOF))
  /\ (forall key h w (r0 : http.Request),
        webhookVerifyHandler key h w r0
        = h (after_verification key w r0) (after_reading r0)
        /\ io.remaining (http.Body (after_reading r0)) = []
        /\ fst (fst (io.ReadAll (http.Body (after_reading r0)))) = []).
Proof.
  cbv zeta. split; [vm_compute; reflexivity |].
  split; [vm_compute; reflexivity |].
  intros key h w r0. split; [apply webhookVerifyHandler_run |].
  assert (Hrem : io.remaining (http.Body (after_reading r0)) = []).
  { unfold after_reading. cbn [http.Body].
    induction (http.Body r0) as [pending e | r IH buf]; [reflexivity | exact IH]. }
  split; [exact Hrem |].
  rewrite ReadAll_all. cbn [fst]. exact Hrem.
Qed.

(** C2: when the verifier returns false the gate writes the 400 response and
    then still calls the downstream handler, on the writer that holds the
    rejection; on every request, accepted or not, the gate ends by calling
    the downstream handler once. *)
Theorem C2_reject_still_delegates (key : string) (h : Handler)
    (w : http.ResponseWriter) (r : http.Request) :
  verifyRequest key
    (http.Get (http.Header r) "X-Shopify-Shop-Domain")
    (http.Get (http.Header r) "X-Shopify-Hmac-Sha256")
    (io.remaining (http.Body r)) = false ->
  webhookVerifyHandler key h w r
  = h (http.Error w "Invalid webhook signature" http.StatusBadRequest) (after_reading r)
  /\ http.StatusBadRequest / 100 = 4
  /\ (forall (w0 : http.ResponseWriter) (r0 : http.Request),
        webhookVerifyHandler key h w0 r0
        = h (if verifyRequest key
                  (http.Get (http.Header r0) "X-Shopify-Shop-Domain")
                  (http.Get (http.Header r0) "X-Shopify-Hmac-Sha256")
                  (io.remaining (http.Body r0))
             then w0
             else http.Error w0 "Invalid webhook signature" http.StatusBadRequest)
            (after_reading r0)).
Proof.
  intros Hno. split; [| split; [reflexivity |]].
  - rewrite webhookVerifyHandler_run. unfold after_verification. now rewrite Hno.
  - intros w0 r0. apply webhookVerifyHandler_run.
Qed.

Lemma C2_witness :
  let r := sample_request "deadbeef" "example.myshopify.com" (io.Stream sample_body EOF) in
  verifyRequest "abc123"
    (http.Get (http.Header r) "X-Shopify-Shop-Domain")
    (http.Get (http.Header r) "X-Shopify-Hmac-Sha256")
    (io.remaining (http.Body r)) = false
  /\ webhookVerifyHandler "abc123" echoBody [] r
     = echoBody (http.Error [] "Invalid webhook signature" http.StatusBadRequest)
                (after_reading r).
Proof.
  cbv zeta. split; [vm_compute; reflexivity |].
  apply (C2_reject_still_delegates "abc123" echoBody []
           (sample_request "deadbeef" "example.myshopify.com" (io.Stream sample_body EOF))).
  vm_compute. reflexivity.
Defined.

(** C3: [verifyRequest] returns true exactly when the sender id is not empty
    and the claimed signature is the lower-case hexadecimal encoding of the
    HMAC-SHA256 of the body under the secret; with sender id [shop] the
    correct signature is accepted and every other string is refused. *)
Theorem C3_verify_iff (secret senderID claimedSignature : string) (body : list byte) :
  (verifyRequest secret senderID claimedSignature body = true
   <-> senderID <> ""%string
       /\ claimedSignature
          = hex.EncodeToString (HMAC_SHA256 (list_byte_of_string secret) body))
  /\ verifyRequest secret "shop" (correctSignatureFor secret body) body = true
  /\ (forall other : string,
        other <> correctSignatureFor secret body ->
        verifyRequest secret "shop" other body = false).
Proof.
  split; [apply verifyRequest_iff |]. split.
  - apply verifyRequest_iff. split; [discriminate | reflexivity].
  - intros other Hne. apply verifyRequest_false_iff. now right.
Qed.

(** C4: with an empty sender id [verifyRequest] returns false, also for the
    correct signature; the answer is the same whatever hash function
    [hmac.New] would be given, so no value of the hash enters it. *)
Theorem C4_empty_sender_rejected (secret claimedSignature : string) (body : list byte) :
  verifyRequest secret "" claimedSignature body = false
  /\ verifyRequest secret "" (correctSignatureFor secret body) body = false
  /\ (forall newHash : hash.Hash,
        verifyRequestWith newHash secret "" claimedSignature body = false).
Proof.
  split; [reflexivity |]. split; [reflexivity |].
  intros newHash. apply verifyRequestWith_empty_shop.
Qed.

(** C5: when the body stream delivers [part] and then fails with an error,
    [ReadAll] returns [part] together with the error, the gate drops the
    error, verifies [part], and goes through the usual two branches to the
    downstream handler: its result is what the downstream handler returns,
    as for a body that ended after [part]. *)
Theorem C5_read_error_swallowed (key : string) (h : Handler) (w : http.ResponseWriter)
    (hdr : gmap string (list string)) (part : list byte) (msg : string) :
  let failing := http.mkRequest hdr (io.Stream part (ErrOther msg)) in
  let complete := http.mkRequest hdr (io.Stream part EOF) in
  let w' :=
    if verifyRequest key (http.Get hdr "X-Shopify-Shop-Domain")
         (http.Get hdr "X-Shopify-Hmac-Sha256") part
    then w
    else http.Error w "Invalid webhook signature" http.StatusBadRequest in
  io.ReadAll (io.TeeReader (http.Body failing) [])
  = (part, Some (ErrOther msg), io.Tee (io.Stream [] (ErrOther msg)) part)
  /\ webhookVerifyHandler key h w failing
     = h w' (http.mkRequest hdr (io.Stream [] (ErrOther msg)))
  /\ webhookVerifyHandler key h w complete
     = h w' (http.mkRequest hdr (io.Stream [] EOF)).
Proof.
  cbv zeta. split; [| split].
  - unfold io.TeeReader. rewrite ReadAll_all. reflexivity.
  - rewrite webhookVerifyHandler_run. reflexivity.
  - rewrite webhookVerifyHandler_run. reflexivity.
Qed.

(** C6: on a request the verifier refuses, the gate makes the calls of
    [http.Error] on the writer: they set status 400 and write the text
    [Invalid webhook signature] followed by a newline, and nothing else goes
    to the body; on a writer not yet written to, that is the status and the
    body of the response when the downstream handler starts. *)
Theorem C6_rejection_response (key : string) (h : Handler)
    (w : http.ResponseWriter) (r : http.Request) :
  verifyRequest key
    (http.Get (http.Header r) "X-Shopify-Shop-Domain")
    (http.Get (http.Header r) "X-Shopify-Hmac-Sha256")
    (io.remaining (http.Body r)) = false ->
  webhookVerifyHandler key h w r = h (w ++ rejection) (after_reading r)
  /\ rejection
     = [ http.HeaderSet "Content-Type" "text/plain; charset=utf-8";
         http.HeaderSet "X-Content-Type-Options" "nosniff";
         http.WriteHeader 400;
         http.Write (list_byte_of_string "Invalid webhook signature" ++ [x0a]) ]
  /\ http.Code (http.response rejection) = Some 400
  /\ http.Sent (http.response rejection)
     = list_byte_of_string "Invalid webhook signature" ++ [x0a]
  /\ (http.Code (http.response w) = None ->
      http.Code (http.response (w ++ rejection)) = Some 400
      /\ http.Sent (http.response (w ++ rejection))
         = http.Sent (http.response w)
           ++ list_byte_of_string "Invalid webhook signature" ++ [x0a]).
Proof.
  intros Hno. split; [| split; [| split; [| split]]].
  - rewrite webhookVerifyHandler_run. unfold after_verification.
    rewrite Hno, Error_app. reflexivity.
  - reflexivity.
  - reflexivity.
  - reflexivity.
  - intros Hfresh. rewrite response_app.
    destruct (http.response w) as [code hm sent]. cbn [http.Code] in Hfresh.
    subst code. split; reflexivity.
Qed.

Lemma C6_witness :
  let r := sample_request "deadbeef" "example.myshopify.com" (io.Stream sample_body EOF) in
  verifyRequest "abc123"
    (http.Get (http.Header r) "X-Shopify-Shop-Domain")
    (http.Get (http.Header r) "X-Shopify-Hmac-Sha256")
    (io.remaining (http.Body r)) = false
  /\ http.Code (http.response (fst (webhookVerifyHandler "abc123" (fun w r => (w, r)) [] r)))
     = Some 400
  /\ http.Sent (http.response (fst (webhookVerifyHandler "abc123" (fun w r => (w, r)) [] r)))
     = list_byte_of_string "Invalid webhook signature" ++ [x0a].
Proof.
  cbv zeta.
  assert (Hno : verifyRequest "abc123"
            (http.Get (http.Header (sample_request "deadbeef" "example.myshopify.com"
                                      (io.Stream sample_body EOF))) "X-Shopify-Shop-Domain")
            (http.Get (http.Header (sample_request "deadbeef" "example.myshopify.com"
                                      (io.Stream sample_body EOF))) "X-Shopify-Hmac-Sha256")
            (io.remaining (http.Body (sample_request "deadbeef" "example.myshopify.com"
                                        (io.Stream sample_body EOF)))) = false)
    by (vm_compute; reflexivity).
  split; [exact Hno |].
  destruct (C6_rejection_response "abc123" (fun w r => (w, r)) []
              (sample_request "deadbeef" "example.myshopify.com" (io.Stream sample_body EOF))
              Hno) as (Hrun & _ & Hcode & Hsent & _).
  rewrite Hrun. cbn [fst app]. split; [exact Hcode | exact Hsent].
Defined.

(** C7: the claimed signature is the first value of the request header
    [X-Shopify-Hmac-Sha256] and the sender id the first value of
    [X-Shopify-Shop-Domain] (the empty string when the header is absent),
    and no other header is consulted: two requests with the same body that
    agree on these two headers are verified alike, whatever else their
    headers hold. *)
Theorem C7_headers_consulted (key : string) (h : Handler) (w : http.ResponseWriter)
    (r1 r2 : http.Request) :
  http.Header r1 !! "X-Shopify-Hmac-Sha256" = http.Header r2 !! "X-Shopify-Hmac-Sha256" ->
  http.Header r1 !! "X-Shopify-Shop-Domain" = http.Header r2 !! "X-Shopify-Shop-Domain" ->
  io.remaining (http.Body r1) = io.remaining (http.Body r2) ->
  let first (o : option (list string)) : string :=
    match o with Some (v :: _) => v | _ => ""%string end in
  let w' :=
    if verifyRequest key
         (first (http.Header r1 !! "X-Shopify-Shop-Domain"))
         (first (http.Header r1 !! "X-Shopify-Hmac-Sha256"))
         (io.remaining (http.Body r1))
    then w
    else http.Error w "Invalid webhook signature" http.StatusBadRequest in
  webhookVerifyHandler key h w r1 = h w' (after_reading r1)
  /\ webhookVerifyHandler key h w r2 = h w' (after_reading r2).
Proof.
  intros Hmac Hshop Hbody. cbv zeta.
  rewrite !webhookVerifyHandler_run. unfold after_verification.
  rewrite !(Get_canonical _ "X-Shopify-Shop-Domain") by reflexivity.
  rewrite !(Get_canonical _ "X-Shopify-Hmac-Sha256") by reflexivity.
  rewrite <- Hmac, <- Hshop, <- Hbody. split; reflexivity.
Qed.

Lemma C7_witness :
  let r1 := sample_request sample_signature "example.myshopify.com"
              (io.Stream sample_body EOF) in
  let r2 := http.mkRequest
              (<["X-Forwarded-Host" := ["other.example"%string]]>
                 (<["X-Shopify-Topic" := ["orders/create"%string]]> (http.Header r1)))
              (io.Stream sample_body EOF) in
  http.Header r1 <> http.Header r2
  /\ webhookVerifyHandler "abc123" echoBody [] r1 = echoBody [] (after_reading r1)
  /\ webhookVerifyHandler "abc123" echoBody [] r2 = echoBody [] (after_reading r2).
Proof.
  cbv zeta. split.
  - intros Heq.
    apply (f_equal (fun m : gmap string (list string) => m !! "X-Shopify-Topic")) in Heq.
    vm_compute in Heq. discriminate Heq.
  - change (echoBody [])
      with (echoBody
              (let first (o : option (list string)) : string :=
                 match o with Some (v :: _) => v | _ => ""%string end in
               if verifyRequest "abc123"
                    (first (sample_header sample_signature "example.myshopify.com"
                              !! "X-Shopify-Shop-Domain"))
                    (first (sample_header sample_signature "example.myshopify.com"
                              !! "X-Shopify-Hmac-Sha256"))
                    sample_body
               then []
               else http.Error [] "Invalid webhook signature" http.StatusBadRequest)).
    apply (C7_headers_consulted "abc123" echoBody []
             (sample_request sample_signature "example.myshopify.com"
                (io.Stream sample_body EOF))
             (http.mkRequest
                (<["X-Forwarded-Host" := ["other.example"%string]]>
                   (<["X-Shopify-Topic" := ["orders/create"%string]]>
                      (sample_header sample_signature "example.myshopify.com")))
                (io.Stream sample_body EOF)));
      vm_compute; reflexivity.
Defined.

(** C8: an empty secret is taken as it is, by [WebhookVerify] and by
    [verifyRequest]: no error, no check.  For a sender id that is not empty
    the verifier computes the HMAC-SHA256 of the body under the empty key
    and returns true exactly when the claimed signature is its lower-case
    hexadecimal encoding. *)
Theorem C8_empty_secret (senderID claimedSignature : string) (body : list byte) :
  senderID <> ""%string ->
  (verifyRequest "" senderID claimedSignature body = true
   <-> claimedSignature = hex.EncodeToString (HMAC_SHA256 [] body))
  /\ (forall (h : Handler) (w : http.ResponseWriter) (r : http.Request),
        WebhookVerify "" h w r = h (after_verification "" w r) (after_reading r)).
Proof.
  intros Hshop. split.
  - rewrite verifyRequest_iff. unfold correctSignatureFor. cbn [list_byte_of_string].
    split; [intros [_ H]; exact H | intros H; split; [exact Hshop | exact H]].
  - intros h w r. unfold WebhookVerify. apply webhookVerifyHandler_run.
Qed.

Lemma C8_witness :
  "example.myshopify.com"%string <> ""%string
  /\ (verifyRequest "" "example.myshopify.com"
        "4352b26e33fe0d769a8922a6ba29004109f01688e26acc9e6cb347e5a5afc4da"
        (list_byte_of_string "hello") = true
      <-> "4352b26e33fe0d769a8922a6ba29004109f01688e26acc9e6cb347e5a5afc4da"%string
          = hex.EncodeToString (HMAC_SHA256 [] (list_byte_of_string "hello"))).
Proof.
  split; [discriminate |].
  apply (C8_empty_secret "example.myshopify.com"
           "4352b26e33fe0d769a8922a6ba29004109f01688e26acc9e6cb347e5a5afc4da"
           (list_byte_of_string "hello")).
  discriminate.
Defined.

(** C9: the sender id only has to be there; two sender ids that are both
    not empty give the same answer for the same secret, signature and
    body. *)
Theorem C9_sender_presence_only (secret claimedSignature s1 s2 : string) (body : list byte) :
  s1 <> ""%string -> s2 <> ""%string ->
  verifyRequest secret s1 claimedSignature body
  = verifyRequest secret s2 claimedSignature body.
Proof.
  intros H1 H2. unfold verifyRequest, verifyRequestWith.
  apply String.eqb_neq in H1, H2. now rewrite H1, H2.
Qed.

Lemma C9_witness :
  "a.myshopify.com"%string <> ""%string /\ "b.myshopify.com"%string <> ""%string
  /\ verifyRequest "abc123" "a.myshopify.com" sample_signature sample_body
     = verifyRequest "abc123" "b.myshopify.com" sample_signature sample_body.
Proof.
  split; [discriminate |]. split; [discriminate |].
  apply (C9_sender_presence_only "abc123" sample_signature
           "a.myshopify.com" "b.myshopify.com" sample_body); discriminate.
Defined.

(** C10: the comparison is plain string equality.  For a sender id that is
    not empty the only accepted signature is the lower-case hexadecimal
    encoding of the digest; its upper-case form is refused whenever it is a
    different string, which is the case exactly when a byte of the digest
    has a letter among its two hexadecimal digits. *)
Theorem C10_exact_comparison (secret shop : string) (body : list byte) :
  shop <> ""%string ->
  let digest := HMAC_SHA256 (list_byte_of_string secret) body in
  (forall claimed : string,
     verifyRequest secret shop claimed body = true
     <-> claimed = hex.EncodeToString digest)
  /\ (ToUpper (hex.EncodeToString digest) <> hex.EncodeToString digest ->
      verifyRequest secret shop (ToUpper (hex.EncodeToString digest)) body = false)
  /\ (ToUpper (hex.EncodeToString digest) <> hex.EncodeToString digest
      <-> existsb alphabetic digest = true).
Proof.
  intros Hshop. cbv zeta. split; [| split].
  - intros claimed. rewrite verifyRequest_iff. unfold correctSignatureFor.
    split; [intros [_ H]; exact H | intros H; split; [exact Hshop | exact H]].
  - intros Hne. apply verifyRequest_false_iff. right. exact Hne.
  - apply ToUpper_EncodeToString.
Qed.

Lemma C10_witness :
  "example.myshopify.com"%string <> ""%string
  /\ ToUpper sample_signature <> sample_signature
  /\ verifyRequest "abc123" "example.myshopify.com" sample_signature sample_body = true
  /\ verifyRequest "abc123" "example.myshopify.com" (ToUpper sample_signature) sample_body
     = false.
Proof.
  assert (Hshop : "example.myshopify.com"%string <> ""%string) by discriminate.
  assert (Hsig : hex.EncodeToString (HMAC_SHA256 (list_byte_of_string "abc123") sample_body)
                 = sample_signature) by (vm_compute; reflexivity).
  assert (Hup : ToUpper sample_signature <> sample_signature) by (vm_compute; discriminate).
  destruct (C10_exact_comparison "abc123" "example.myshopify.com" sample_body Hshop)
    as (Hiff & Hupper & _).
  rewrite Hsig in Hiff, Hupper.
  split; [exact Hshop |]. split; [exact Hup |].
  split; [apply Hiff; reflexivity | apply Hupper; exact Hup].
Defined.

(** * Further properties of the code *)

(** ** Helper facts *)

Section EncodingFacts.

Lemma Z_of_byte_inj (a b : byte) : Z_of_byte a = Z_of_byte b -> a = b.
Proof.
  unfold Z_of_byte. intros H. apply N2Z.inj in H.
  pose proof (Byte.of_to_N a) as Ha. rewrite H, Byte.of_to_N in Ha. congruence.
Qed.

(** Each character of the encoding is a digit of [0-9a-f]. *)
Lemma digit_is_hex (v : byte) :
  (exists d, hex_value (hex.digit (Z.shiftr (Z_of_byte v) 4)) = Some d)
  /\ (exists d, hex_value (hex.digit (Z.land (Z_of_byte v) 0x0F)) = Some d).
Proof. destruct v; vm_compute; split; eexists; reflexivity. Qed.

Lemma EncodeToString_hex (src : list byte) :
  Forall (fun c => exists d, hex_value c = Some d)
         (list_ascii_of_string (hex.EncodeToString src)).
Proof.
  induction src as [| v src IH]; cbn [hex.EncodeToString list_ascii_of_string].
  - constructor.
  - destruct (digit_is_hex v) as [Hhi Hlo]. repeat constructor; assumption.
Qed.

(** A byte is determined by its two characters. *)
Lemma digits_determine (a b : byte) :
  hex.digit (Z.shiftr (Z_of_byte a) 4) = hex.digit (Z.shiftr (Z_of_byte b) 4) ->
  hex.digit (Z.land (Z_of_byte a) 0x0F) = hex.digit (Z.land (Z_of_byte b) 0x0F) ->
  a = b.
Proof.
  intros Hhi Hlo. apply Z_of_byte_inj.
  destruct (digits_of_byte a) as (ha & la & Hha & Hla & ->).
  destruct (digits_of_byte b) as (hb & lb & Hhb & Hlb & ->).
  rewrite Hhi in Hha. rewrite Hlo in Hla. congruence.
Qed.

Lemma EncodeToString_inj (a b : list byte) :
  hex.EncodeToString a = hex.EncodeToString b -> a = b.
Proof.
  revert b. induction a as [| x a IH]; intros [| y b] H;
    cbn [hex.EncodeToString] in H; try discriminate; [reflexivity |].
  inversion H as [[Hhi Hlo Hrest]].
  f_equal; [apply digits_determine; assumption | apply IH; assumption].
Qed.

Lemma HMAC_SHA256_length (key text : list byte) :
  length (HMAC_SHA256 key text) = 32%nat.
Proof. unfold HMAC_SHA256. cbv zeta. apply Sum256_length. Qed.

Lemma correctSignatureFor_length (secret : string) (body : list byte) :
  String.length (correctSignatureFor secret body) = 64%nat.
Proof.
  unfold correctSignatureFor. now rewrite EncodeToString_length, HMAC_SHA256_length.
Qed.

Lemma list_byte_of_string_app (s t : string) :
  list_byte_of_string (String.append s t)
  = list_byte_of_string s ++ list_byte_of_string t.
Proof.
  unfold list_byte_of_string. induction s as [| c s IH]; [reflexivity |].
  change (String.append (String c s) t) with (String c (String.append s t)).
  cbn [list_ascii_of_string map app]. now rewrite IH.
Qed.

Lemma list_byte_of_string_length (s : string) :
  length (list_byte_of_string s) = String.length s.
Proof.
  unfold list_byte_of_string.
  induction s as [| c s IH]; cbn [String.length list_ascii_of_string map length];
    [reflexivity | now rewrite IH].
Qed.

(** Zero bytes at the end of a key that fits the block vanish in the zero
    fill of the pad. *)
Lemma HMAC_SHA256_zero_extended (key text : list byte) (n : nat) :
  (length key + n <= 64)%nat ->
  HMAC_SHA256 (key ++ repeat x00 n) text = HMAC_SHA256 key text.
Proof.
  intros H. unfold HMAC_SHA256. cbv zeta.
  assert (H1 : (64 <? length (key ++ repeat x00 n))%nat = false)
    by (apply Nat.ltb_ge; rewrite length_app, repeat_length; lia).
  assert (H2 : (64 <? length key)%nat = false) by (apply Nat.ltb_ge; lia).
  rewrite H1, H2.
  assert (Hpad : (key ++ repeat x00 n) ++ repeat x00 (64 - length (key ++ repeat x00 n))
                 = key ++ repeat x00 (64 - length key)).
  { rewrite length_app, repeat_length, <- app_assoc, <- repeat_app.
    do 2 f_equal. lia. }
  now rewrite Hpad.
Qed.

(** A key longer than the block stands for its digest. *)
Lemma HMAC_SHA256_long_key (key text : list byte) :
  (64 < length key)%nat ->
  HMAC_SHA256 key text = HMAC_SHA256 (sha256.Sum256 key) text.
Proof.
  intros H. unfold HMAC_SHA256. cbv zeta.
  apply Nat.ltb_lt in H. rewrite H, Sum256_length.
  change (64 <? sha256.Size)%nat with false. cbv iota.
  rewrite Sum256_length. reflexivity.
Qed.

(** [verifyRequest] in one line. *)
Lemma verifyRequest_eq (key shop shmac : string) (bb : list byte) :
  verifyRequest key shop shmac bb
  = negb (String.eqb shop "")
    && String.eqb (hex.EncodeToString (HMAC_SHA256 (list_byte_of_string key) bb)) shmac.
Proof.
  unfold verifyRequest, verifyRequestWith. rewrite hmac_sha256_refines.
  destruct (String.eqb shop ""); reflexivity.
Qed.

End EncodingFacts.

Section ResponseFacts.


End ResponseFacts.

Section ReaderMoreFacts.

Import io.

Lemma remaining_drained (r : Reader) : remaining (drained r) = [].
Proof. induction r as [pending e | r IH w]; [reflexivity | exact IH]. Qed.

Lemma final_drained (r : Reader) : final (drained r) = final r.
Proof. induction r as [pending e | r IH w]; [reflexivity | exact IH]. Qed.

Lemma drained_drained (r : Reader) : drained (drained r) = drained r.
Proof. apply drained_exhausted, remaining_drained. Qed.

End ReaderMoreFacts.

(** ** Reading the body (lines 37-39) *)

(** X1: reading a body to the end through the tee returns all of its bytes,
    in order and whatever their number, adds the same bytes to the buffer
    and leaves the body reader at its end; a clean end of the stream is
    reported as no error, any other error as it is. *)
Theorem X1_tee_reads_whole_body (body buffer : list byte) (e : error) :
  io.ReadAll (io.TeeReader (io.Stream body e) buffer)
  = (body, io.reported e, io.Tee (io.Stream [] e) (buffer ++ body)).
Proof. unfold io.TeeReader. rewrite ReadAll_all. reflexivity. Qed.

(** ** The signatures [verifyRequest] accepts (lines 53-65) *)

(** X2: a signature that is accepted has 64 characters, each a digit of
    [0-9a-f], and came with a sender id that is not empty. *)
Theorem X2_accepted_signature_shape (key shop shmac : string) (bb : list byte) :
  verifyRequest key shop shmac bb = true ->
  String.length shmac = 64%nat
  /\ Forall (fun c => exists d, hex_value c = Some d) (list_ascii_of_string shmac)
  /\ shop <> ""%string.
Proof.
  intros H. apply verifyRequest_iff in H. destruct H as [Hshop ->].
  split; [apply correctSignatureFor_length |].
  split; [apply EncodeToString_hex | exact Hshop].
Qed.

Lemma X2_witness :
  verifyRequest "abc123" "example.myshopify.com" sample_signature sample_body = true
  /\ String.length sample_signature = 64%nat
  /\ Forall (fun c => exists d, hex_value c = Some d)
            (list_ascii_of_string sample_signature).
Proof.
  assert (H : verifyRequest "abc123" "example.myshopify.com" sample_signature sample_body
              = true) by (vm_compute; reflexivity).
  split; [exact H |].
  destruct (X2_accepted_signature_shape "abc123" "example.myshopify.com"
              sample_signature sample_body H) as (Hlen & Hhex & _).
  split; [exact Hlen | exact Hhex].
Defined.

(** X3: a request that lacks the signature header or the sender header is
    refused whatever the key and the body: the gate writes the rejection
    and goes on to the downstream handler. *)
Theorem X3_missing_header_rejected (key : string) (h : Handler)
    (w : http.ResponseWriter) (r : http.Request) :
  http.Header r !! "X-Shopify-Hmac-Sha256" = None
  \/ http.Header r !! "X-Shopify-Shop-Domain" = None ->
  webhookVerifyHandler key h w r
  = h (http.Error w "Invalid webhook signature" http.StatusBadRequest) (after_reading r).
Proof.
  intros Hmiss. rewrite webhookVerifyHandler_run. unfold after_verification.
  rewrite (Get_canonical _ "X-Shopify-Shop-Domain") by reflexivity.
  rewrite (Get_canonical _ "X-Shopify-Hmac-Sha256") by reflexivity.
  match goal with |- h (if ?b then _ else _) _ = _ => assert (Hno : b = false) end.
  { apply verifyRequest_false_iff. destruct Hmiss as [-> | ->].
    - right. intros Heq. apply (f_equal String.length) in Heq.
      rewrite correctSignatureFor_length in Heq. discriminate Heq.
    - now left. }
  now rewrite Hno.
Qed.

Lemma X3_witness :
  let r := http.mkRequest (<["X-Shopify-Shop-Domain" := ["example.myshopify.com"%string]]> ∅)
             (io.Stream sample_body EOF) in
  http.Header r !! "X-Shopify-Hmac-Sha256" = None
  /\ webhookVerifyHandler "abc123" echoBody [] r
     = echoBody (http.Error [] "Invalid webhook signature" http.StatusBadRequest)
                (after_reading r).
Proof.
  cbv zeta. split; [vm_compute; reflexivity |].
  apply (X3_missing_header_rejected "abc123" echoBody []
           (http.mkRequest
              (<["X-Shopify-Shop-Domain" := ["example.myshopify.com"%string]]> ∅)
              (io.Stream sample_body EOF))).
  left. vm_compute. reflexivity.
Defined.

(** X4: the hexadecimal encoding loses nothing: when one signature is
    accepted for two bodies, under the same or different secrets, the two
    HMAC digests are the same 32 bytes. *)
Theorem X4_signature_determines_digest (secret1 secret2 shop1 shop2 shmac : string)
    (body1 body2 : list byte) :
  verifyRequest secret1 shop1 shmac body1 = true ->
  verifyRequest secret2 shop2 shmac body2 = true ->
  HMAC_SHA256 (list_byte_of_string secret1) body1
  = HMAC_SHA256 (list_byte_of_string secret2) body2
  /\ length (HMAC_SHA256 (list_byte_of_string secret1) body1) = 32%nat.
Proof.
  intros H1 H2. apply verifyRequest_iff in H1, H2.
  destruct H1 as [_ H1], H2 as [_ H2]. unfold correctSignatureFor in H1, H2.
  split; [| apply HMAC_SHA256_length].
  apply EncodeToString_inj. congruence.
Qed.

Lemma X4_witness :
  verifyRequest "abc123" "a.myshopify.com" sample_signature sample_body = true
  /\ verifyRequest (zero_extended "abc123" 2) "b.myshopify.com" sample_signature sample_body
     = true
  /\ HMAC_SHA256 (list_byte_of_string "abc123") sample_body
     = HMAC_SHA256 (list_byte_of_string (zero_extended "abc123" 2)) sample_body.
Proof.
  assert (H1 : verifyRequest "abc123" "a.myshopify.com" sample_signature sample_body = true)
    by (vm_compute; reflexivity).
  assert (H2 : verifyRequest (zero_extended "abc123" 2) "b.myshopify.com"
                 sample_signature sample_body = true)
    by (vm_compute; reflexivity).
  split; [exact H1 |]. split; [exact H2 |].
  exact (proj1 (X4_signature_determines_digest "abc123" (zero_extended "abc123" 2)
                  "a.myshopify.com" "b.myshopify.com" sample_signature
                  sample_body sample_body H1 H2)).
Defined.

(** ** The secret as an HMAC key (line 60) *)

(** X5: zero bytes at the end of a secret that stays within the 64-byte
    block do not count: the secret and its extension accept exactly the
    same requests. *)
Theorem X5_trailing_zero_bytes_ignored (key shop shmac : string) (bb : list byte)
    (n : nat) :
  (String.length key + n <= 64)%nat ->
  verifyRequest (zero_extended key n) shop shmac bb = verifyRequest key shop shmac bb.
Proof.
  intros H. rewrite !verifyRequest_eq. unfold zero_extended.
  rewrite list_byte_of_string_app, list_byte_of_string_of_list_byte.
  rewrite HMAC_SHA256_zero_extended by (rewrite list_byte_of_string_length; exact H).
  reflexivity.
Qed.

Lemma X5_witness :
  (String.length "abc123" + 3 <= 64)%nat
  /\ zero_extended "abc123" 3 <> "abc123"%string
  /\ verifyRequest (zero_extended "abc123" 3) "example.myshopify.com"
       sample_signature sample_body
     = verifyRequest "abc123" "example.myshopify.com" sample_signature sample_body.
Proof.
  split; [vm_compute; lia |].
  split; [vm_compute; discriminate |].
  apply (X5_trailing_zero_bytes_ignored "abc123" "example.myshopify.com"
           sample_signature sample_body 3).
  vm_compute. lia.
Defined.

(** X6: a secret of more than 64 bytes is replaced by its SHA-256 digest:
    the 32 bytes of the digest, used as the secret, accept exactly the same
    requests. *)
Theorem X6_long_key_is_hashed (key shop shmac : string) (bb : list byte) :
  (64 < String.length key)%nat ->
  verifyRequest (string_of_list_byte (sha256.Sum256 (list_byte_of_string key)))
    shop shmac bb
  = verifyRequest key shop shmac bb.
Proof.
  intros H. rewrite !verifyRequest_eq, list_byte_of_string_of_list_byte.
  rewrite <- HMAC_SHA256_long_key by (rewrite list_byte_of_string_length; exact H).
  reflexivity.
Qed.

Lemma X6_witness :
  let key := "a-secret-of-seventy-bytes-is-longer-than-one-block-of-sha-256-hashing!"%string in
  (64 < String.length key)%nat
  /\ verifyRequest (string_of_list_byte (sha256.Sum256 (list_byte_of_string key)))
       "example.myshopify.com" (correctSignatureFor key sample_body) sample_body
     = verifyRequest key "example.myshopify.com" (correctSignatureFor key sample_body)
         sample_body.
Proof.
  cbv zeta. split; [vm_compute; lia |].
  apply (X6_long_key_is_hashed
           "a-secret-of-seventy-bytes-is-longer-than-one-block-of-sha-256-hashing!"
           "example.myshopify.com").
  vm_compute. lia.
Defined.

(** ** The gate and the downstream handler (lines 42-46) *)



(** ** Composing gates (lines 21-25) *)

(** X8: when a gate wraps another gate, the inner one finds the body read to
    its end and verifies the signature of the request against no bytes at
    all; the writer it works on is the one the outer gate left, and the
    downstream handler is reached in every case. *)
Theorem X8_nested_gates (key1 key2 : string) (h : Handler)
    (w : http.ResponseWriter) (r : http.Request) :
  WebhookVerify key1 (WebhookVerify key2 h) w r
  = h (if verifyRequest key2
            (http.Get (http.Header r) "X-Shopify-Shop-Domain")
            (http.Get (http.Header r) "X-Shopify-Hmac-Sha256")
            []
       then after_verification key1 w r
       else http.Error (after_verification key1 w r)
              "Invalid webhook signature" http.StatusBadRequest)
      (after_reading r).
Proof.
  unfold WebhookVerify. rewrite !webhookVerifyHandler_run.
  unfold after_verification at 1.
  assert (Hagain : after_reading (after_reading r) = after_reading r).
  { unfold after_reading. cbn [http.Header http.Body]. now rewrite drained_drained. }
  rewrite Hagain. unfold after_reading at 1 2 3. cbn [http.Header http.Body].
  rewrite remaining_drained. reflexivity.
Qed.

(** ** The response of a rejection (line 43) *)

(** X9: on a response not yet started, the rejection replaces whatever
    content type was set before by plain text and forbids content
    sniffing. *)
Theorem X9_rejection_headers (w : http.ResponseWriter) :
  http.Code (http.response w) = None ->
  http.HeaderMap (http.response (w ++ rejection)) !! "Content-Type"
  = Some ["text/plain; charset=utf-8"%string]
  /\ http.HeaderMap (http.response (w ++ rejection)) !! "X-Content-Type-Options"
     = Some ["nosniff"%string].
Proof.
  intros Hfresh. rewrite response_app.
  destruct (http.response w) as [code hm sent]. cbn [http.Code] in Hfresh. subst code.
  unfold rejection, http.Error. cbn [app fold_left http.serve http.Code http.HeaderMap].
  change (http.CanonicalMIMEHeaderKey "Content-Type") with "Content-Type"%string.
  change (http.CanonicalMIMEHeaderKey "X-Content-Type-Options")
    with "X-Content-Type-Options"%string.
  split.
  - rewrite lookup_insert_ne by discriminate. apply lookup_insert_eq.
  - apply lookup_insert_eq.
Qed.

Lemma X9_witness :
  let w := [http.HeaderSet "content-type" "application/json"] in
  http.Code (http.response w) = None
  /\ http.HeaderMap (http.response w) !! "Content-Type" = Some ["application/json"%string]
  /\ http.HeaderMap (http.response (w ++ rejection)) !! "Content-Type"
     = Some ["text/plain; charset=utf-8"%string].
Proof.
  cbv zeta. split; [vm_compute; reflexivity |]. split; [vm_compute; reflexivity |].
  apply (X9_rejection_headers [http.HeaderSet "content-type" "application/json"]).
  vm_compute. reflexivity.
Defined.
